(** * Web Search Microservice (app.py)

    A shallow embedding of the FastAPI service of [src/app.py]: the module
    initialisation (credential check), the request and response models, and
    the three handlers [health_check], [perform_search] and [quick_search].

    Python values are the JSON-shaped values the handlers exchange with the
    client and with the Tavily provider.  Exceptions are values of an error
    monad.  The provider and Pydantic's scalar validators are library code:
    the provider is a client object with a [search] method, Pydantic is an
    interface with the laws every version of it satisfies. *)

From Stdlib Require Import ZArith Floats.
From stdpp Require Import base option list gmap strings.

Set Warnings "-register-all".

(** ** Python values *)

Inductive pyval :=
| PNone
| PBool (b : bool)
| PInt (n : Z)
| PFloat (f : float)
| PStr (s : string)
| PList (l : list pyval)
| PDict (d : gmap string pyval).

(** [type(v).__name__] *)
Definition type_name (v : pyval) : string :=
  match v with
  | PNone => "NoneType"
  | PBool _ => "bool"
  | PInt _ => "int"
  | PFloat _ => "float"
  | PStr _ => "str"
  | PList _ => "list"
  | PDict _ => "dict"
  end.

(** An [Optional[T]] attribute as a Python value. *)
Definition py_option {A} (f : A → pyval) (o : option A) : pyval :=
  match o with
  | Some x => f x
  | None => PNone
  end.

(** A [List[str]] attribute as a Python value. *)
Definition py_strs (l : list string) : pyval := PList (PStr <$> l).

(** ** Exceptions and the error monad *)

(** An exception: its class and what [str(e)] gives. *)
Record exn := Raise { exn_class : string; exn_str : string }.

Definition result (A : Type) : Type := exn + A.

#[global] Instance result_ret : MRet result := λ A x, inr x.
#[global] Instance result_bind : MBind result :=
  λ A B f m, match m with inl e => inl e | inr x => f x end.

Definition raise {A} (e : exn) : result A := inl e.

(** [repr] of a key that is a plain identifier, as in the handlers. *)
Definition repr (k : string) : string := "'" +:+ k +:+ "'".

Definition KeyError (k : string) : exn := Raise "KeyError" (repr k).
Definition TypeError (msg : string) : exn := Raise "TypeError" msg.
Definition AttributeError (msg : string) : exn := Raise "AttributeError" msg.
Definition ValueError (msg : string) : exn := Raise "ValueError" msg.

(** [v[k]] for a string key [k]: only a dict can be subscripted by a
    string. *)
Definition getitem (v : pyval) (k : string) : result pyval :=
  match v with
  | PDict d =>
      match d !! k with
      | Some x => mret x
      | None => raise (KeyError k)
      end
  | PStr _ => raise (TypeError "string indices must be integers, not 'str'")
  | PList _ => raise (TypeError "list indices must be integers or slices, not str")
  | _ => raise (TypeError (repr (type_name v) +:+ " object is not subscriptable"))
  end.

(** [v.get(k, default)]: only a dict has the method. *)
Definition get (v : pyval) (k : string) (dflt : pyval) : result pyval :=
  match v with
  | PDict d => mret (default dflt (d !! k))
  | _ => raise (AttributeError (repr (type_name v) +:+ " object has no attribute 'get'"))
  end.

(** [for r in v]: the elements a [for] loop over [v] visits, in order.  A
    string yields its characters, a dict its keys. *)
Definition iter (v : pyval) : result (list pyval) :=
  match v with
  | PList l => mret l
  | PStr s => mret ((λ c, PStr (String c "")) <$> String.list_ascii_of_string s)
  | PDict d => mret (PStr <$> (map_to_list d).*1)
  | _ => raise (TypeError (repr (type_name v) +:+ " object is not iterable"))
  end.

(** [if v:] for an [Optional[List[str]]] attribute: [None] and the empty
    list are false. *)
Definition truthy (o : option (list string)) : bool :=
  match o with
  | Some (_ :: _) => true
  | _ => false
  end.

(** ** Pydantic

    The validators of the scalar field types, as the installed Pydantic
    provides them.  Which foreign values a validator coerces differs between
    versions; every version returns a value of the declared type unchanged,
    and these are the laws. *)

Record Pydantic := {
  str_validator : pyval → option string;
  int_validator : pyval → option Z;
  float_validator : pyval → option float;
  bool_validator : pyval → option bool;
  (** [str(e)] of the [ValidationError] for a model and its failing fields *)
  ValidationError_str : string → list string → string;
  str_validator_str s : str_validator (PStr s) = Some s;
  int_validator_int n : int_validator (PInt n) = Some n;
  float_validator_float f : float_validator (PFloat f) = Some f;
  bool_validator_bool b : bool_validator (PBool b) = Some b
}.

Definition ValidationError (P : Pydantic) (model : string) (fields : list string) : exn :=
  Raise "ValidationError" (ValidationError_str P model fields).

(** A field [name: T] without a default: it must be supplied and is not
    allowed to be [None]. *)
Definition required {A} (validator : pyval → option A) (v : option pyval) : option A :=
  match v with
  | None | Some PNone => None
  | Some x => validator x
  end.

(** A field [name: Optional[T] = dflt]: the default when the field is left
    out, [None] when it is given as [None]. *)
Definition optional {A} (validator : pyval → option A) (dflt : option A)
    (v : option pyval) : option (option A) :=
  match v with
  | None => Some dflt
  | Some PNone => Some None
  | Some x => Some <$> validator x
  end.

(** [List[T]] *)
Definition list_validator {A} (validator : pyval → option A) (v : pyval) : option (list A) :=
  match v with
  | PList l => mapM validator l
  | _ => None
  end.

(** The name of a field that failed validation. *)
Definition invalid {A} (name : string) (o : option A) : list string :=
  match o with
  | Some _ => []
  | None => [name]
  end.

(** ** The models *)

Module SearchRequest.
Record t := mk {
  query : string;
  search_depth : option string;
  max_results : option Z;
  include_answer : option bool;
  include_raw_content : option bool;
  include_images : option bool;
  include_domains : option (list string);
  exclude_domains : option (list string)
}.
End SearchRequest.

Module SearchResult.
Record t := mk {
  title : string;
  url : string;
  content : string;
  score : float;
  published_date : option string
}.
End SearchResult.

Module SearchResponse.
Record t := mk {
  query : string;
  answer : option string;
  results : list SearchResult.t
}.
End SearchResponse.

(** Validation of a request body against [SearchRequest]: the validated
    request, or the fields that failed. *)
Definition SearchRequest_validate (P : Pydantic) (body : pyval)
    : list string + SearchRequest.t :=
  match body with
  | PDict d =>
      let query := required (str_validator P) (d !! "query") in
      let search_depth := optional (str_validator P) (Some "advanced") (d !! "search_depth") in
      let max_results := optional (int_validator P) (Some 8%Z) (d !! "max_results") in
      let include_answer := optional (bool_validator P) (Some true) (d !! "include_answer") in
      let include_raw_content :=
        optional (bool_validator P) (Some false) (d !! "include_raw_content") in
      let include_images := optional (bool_validator P) (Some false) (d !! "include_images") in
      let include_domains :=
        optional (list_validator (str_validator P)) None (d !! "include_domains") in
      let exclude_domains :=
        optional (list_validator (str_validator P)) None (d !! "exclude_domains") in
      match
        q ← query; sd ← search_depth; mr ← max_results; ia ← include_answer;
        irc ← include_raw_content; ii ← include_images;
        id ← include_domains; ed ← exclude_domains;
        Some (SearchRequest.mk q sd mr ia irc ii id ed)
      with
      | Some request => inr request
      | None =>
          inl (invalid "query" query ++ invalid "search_depth" search_depth
               ++ invalid "max_results" max_results
               ++ invalid "include_answer" include_answer
               ++ invalid "include_raw_content" include_raw_content
               ++ invalid "include_images" include_images
               ++ invalid "include_domains" include_domains
               ++ invalid "exclude_domains" exclude_domains)
      end
  | _ => inl ["body"]
  end.

(** [SearchResult(title=.., url=.., content=.., score=.., published_date=..)] *)
Definition SearchResult_new (P : Pydantic) (title url content score published_date : pyval)
    : result SearchResult.t :=
  let t := required (str_validator P) (Some title) in
  let u := required (str_validator P) (Some url) in
  let c := required (str_validator P) (Some content) in
  let s := required (float_validator P) (Some score) in
  let pd := optional (str_validator P) None (Some published_date) in
  match t' ← t; u' ← u; c' ← c; s' ← s; pd' ← pd; Some (SearchResult.mk t' u' c' s' pd') with
  | Some r => mret r
  | None =>
      raise (ValidationError P "SearchResult"
               (invalid "title" t ++ invalid "url" u ++ invalid "content" c
                ++ invalid "score" s ++ invalid "published_date" pd))
  end.

(** [SearchResponse(query=.., answer=.., results=..)], where [query] is a
    [str] and [results] a list of [SearchResult] objects already. *)
Definition SearchResponse_new (P : Pydantic) (query : string) (answer : pyval)
    (results : list SearchResult.t) : result SearchResponse.t :=
  let a := optional (str_validator P) None (Some answer) in
  match a with
  | Some a' => mret (SearchResponse.mk query a' results)
  | None => raise (ValidationError P "SearchResponse" (invalid "answer" a))
  end.

(** The validators that accept a value of the declared type and nothing
    else.  Every Pydantic accepts these values; none accepts a list or a
    dict where a string is declared. *)
Definition strict_str (v : pyval) : option string :=
  match v with PStr s => Some s | _ => None end.
Definition strict_int (v : pyval) : option Z :=
  match v with PInt n => Some n | _ => None end.
Definition strict_float (v : pyval) : option float :=
  match v with PFloat f => Some f | _ => None end.
Definition strict_bool (v : pyval) : option bool :=
  match v with PBool b => Some b | _ => None end.

Definition strict_error_str (model : string) (fields : list string) : string :=
  "validation error for " +:+ model +:+ ": " +:+ String.concat ", " fields.

Definition strict : Pydantic :=
  {| str_validator := strict_str;
     int_validator := strict_int;
     float_validator := strict_float;
     bool_validator := strict_bool;
     ValidationError_str := strict_error_str;
     str_validator_str := λ _, eq_refl;
     int_validator_int := λ _, eq_refl;
     float_validator_float := λ _, eq_refl;
     bool_validator_bool := λ _, eq_refl |}.

(** ** The provider

    The Tavily client is an object with one method, [search(query, **kwargs)],
    which returns the provider's reply or raises.  A test replaces the
    module's client by another object with that method. *)

Record TavilyClient := { search : string → gmap string pyval → result pyval }.

(** One invocation of [search]: the query and the keyword arguments. *)
Record provider_call := Call {
  call_query : string;
  call_kwargs : gmap string pyval
}.

(** ** Handlers' effects

    A handler's computation may raise and may invoke the provider; the
    invocations are recorded in a log in the order they are made. *)

Definition M (A : Type) : Type := list provider_call → result A * list provider_call.

#[global] Instance M_ret : MRet M := λ A x log, (inr x, log).
#[global] Instance M_bind : MBind M :=
  λ A B f m log,
    match m log with
    | (inl e, log') => (inl e, log')
    | (inr x, log') => f x log'
    end.

(** A step that does not reach the provider. *)
Definition lift {A} (r : result A) : M A := λ log, (r, log).

(** [client.search(query=query, **kwargs)] *)
Definition invoke (client : TavilyClient) (query : string) (kwargs : gmap string pyval)
    : M pyval :=
  λ log, (search client query kwargs, log ++ [Call query kwargs]).

(** What a handler hands back to the framework. *)
Inductive outcome (A : Type) :=
| Return (body : A)
| HTTPException (status_code : Z) (detail : string)
| RequestValidationError (fields : list string).
Arguments Return {A} body.
Arguments HTTPException {A} status_code detail.
Arguments RequestValidationError {A} fields.

(** The status of the HTTP response the framework sends for an outcome. *)
Definition status {A} (o : outcome A) : Z :=
  match o with
  | Return _ => 200
  | HTTPException status_code _ => status_code
  | RequestValidationError _ => 422
  end.

(** [try: body  except Exception as e: raise HTTPException(500, prefix + str(e))] *)
Definition try_except {A} (body : M A) (prefix : string)
    : list provider_call → outcome A * list provider_call :=
  λ log,
    match body log with
    | (inr x, log') => (Return x, log')
    | (inl e, log') => (HTTPException 500 (prefix +:+ exn_str e), log')
    end.

(** ** The handlers *)

Section Handlers.

(** Pydantic as installed, and the module's global client [tavily]. *)
Variable P : Pydantic.
Variable tavily : TavilyClient.

(** [GET /health] *)
Definition health_check : pyval :=
  PDict (<["message" := PStr "Web Search Microservice is running"]>
         {["status" := PStr "healthy"]}).

(** The keyword arguments [perform_search] prepares: the dict literal with
    the five scalar options, then the two domain lists under [if]. *)
Definition search_params (request : SearchRequest.t) : gmap string pyval :=
  let search_params : gmap string pyval :=
    <["include_images" := py_option PBool (SearchRequest.include_images request)]>
    (<["include_raw_content" := py_option PBool (SearchRequest.include_raw_content request)]>
    (<["include_answer" := py_option PBool (SearchRequest.include_answer request)]>
    (<["max_results" := py_option PInt (SearchRequest.max_results request)]>
    {["search_depth" := py_option PStr (SearchRequest.search_depth request)]}))) in
  let search_params : gmap string pyval :=
    if truthy (SearchRequest.include_domains request)
    then <["include_domains" := py_option py_strs (SearchRequest.include_domains request)]>
           search_params
    else search_params in
  if truthy (SearchRequest.exclude_domains request)
  then <["exclude_domains" := py_option py_strs (SearchRequest.exclude_domains request)]>
         search_params
  else search_params.

(** One element of the list comprehension: [SearchResult(title=r["title"], ...)],
    the arguments evaluated left to right. *)
Definition structure (r : pyval) : result SearchResult.t :=
  title ← getitem r "title";
  url ← getitem r "url";
  content ← getitem r "content";
  score ← getitem r "score";
  published_date ← get r "published_date" PNone;
  SearchResult_new P title url content score published_date.

(** What [perform_search] does with the provider's reply. *)
Definition structured (request : SearchRequest.t) (response : pyval)
    : result SearchResponse.t :=
  results ← get response "results" (PList []);
  rs ← iter results;
  structured_results ← mapM structure rs;
  answer ← get response "answer" PNone;
  SearchResponse_new P (SearchRequest.query request) answer structured_results.

(** [POST /search], the handler body, for a validated request. *)
Definition perform_search (request : SearchRequest.t)
    : list provider_call → outcome SearchResponse.t * list provider_call :=
  try_except
    (response ← invoke tavily (SearchRequest.query request) (search_params request);
     lift (structured request response))
    "Tavily search error: ".

(** [POST /search] as the framework serves it: the body is validated against
    [SearchRequest] first, and the handler runs on a validated request only. *)
Definition post_search (body : pyval)
    : list provider_call → outcome SearchResponse.t * list provider_call :=
  λ log,
    match SearchRequest_validate P body with
    | inl fields => (RequestValidationError fields, log)
    | inr request => perform_search request log
    end.

(** [GET /quick-search?query=..], the handler body. *)
Definition quick_search (query : string)
    : list provider_call → outcome pyval * list provider_call :=
  try_except
    (response ← invoke tavily query ∅;
     answer ← lift (get response "answer" PNone);
     results ← lift (get response "results" PNone);
     mret (PDict (<["results" := results]> (<["answer" := answer]>
                   {["query" := PStr query]}))))
    "Quick search error: ".

(** [GET /quick-search] as the framework serves it: [query] is a required
    query parameter. *)
Definition get_quick_search (params : gmap string string)
    : list provider_call → outcome pyval * list provider_call :=
  λ log,
    match params !! "query" with
    | Some query => quick_search query log
    | None => (RequestValidationError ["query"], log)
    end.

End Handlers.

(** ** Module initialisation and the running service *)

(** [load_dotenv()]: the variables of the [.env] file are added to the
    process environment; a variable that is set already keeps its value. *)
Definition load_dotenv (dotenv environ : gmap string string) : gmap string string :=
  environ ∪ dotenv.

(** The module's globals once [app.py] has been imported. *)
Record app := {
  TAVILY_API_KEY : string;
  tavily_client : TavilyClient
}.

Inductive request :=
| GET_health
| POST_search (body : pyval)
| GET_quick_search (params : gmap string string).

Inductive response :=
| health_response (body : pyval)
| search_response (o : outcome SearchResponse.t)
| quick_search_response (o : outcome pyval).

Section Service.

Variable P : Pydantic.
(** The library's constructor [TavilyClient(api_key=..)]. *)
Variable TavilyClient_new : string → TavilyClient.

(** Importing [app.py]: lines 15 to 23.  [not TAVILY_API_KEY] holds for
    [None] and for the empty string. *)
Definition import_app (dotenv environ : gmap string string) : result app :=
  let environ := load_dotenv dotenv environ in
  match environ !! "TAVILY_API_KEY" with
  | Some (String c s as key) =>
      mret {| TAVILY_API_KEY := key; tavily_client := TavilyClient_new key |}
  | _ => raise (ValueError "TAVILY_API_KEY not set in environment variables")
  end.

Definition handle (a : app) (r : request)
    : list provider_call → response * list provider_call :=
  λ log,
    match r with
    | GET_health => (health_response health_check, log)
    | POST_search body =>
        let (o, log') := post_search P (tavily_client a) body log in
        (search_response o, log')
    | GET_quick_search params =>
        let (o, log') := get_quick_search (tavily_client a) params log in
        (quick_search_response o, log')
    end.

(** The requests served one after the other by an imported application. *)
Fixpoint serve (a : app) (rs : list request) (log : list provider_call)
    : list response * list provider_call :=
  match rs with
  | [] => ([], log)
  | r :: rs =>
      let (x, log') := handle a r log in
      let (xs, log'') := serve a rs log' in
      (x :: xs, log'')
  end.

(** The process: [uvicorn app:app].  The application is imported, and only
    an imported application serves requests. *)
Definition run (dotenv environ : gmap string string) (rs : list request)
    : result (list response * list provider_call) :=
  a ← import_app dotenv environ;
  mret (serve a rs []).

End Service.

(** ** Specification vocabulary *)

(** [s] occurs in [t]. *)
Definition contains (s t : string) : Prop := ∃ pre post, t = pre +:+ s +:+ post.

(** The provider call [perform_search] makes for a request. *)
Definition search_call (request : SearchRequest.t) : provider_call :=
  Call (SearchRequest.query request) (search_params request).

(** The request a body that gives the query alone validates to. *)
Definition default_request (query : string) : SearchRequest.t :=
  SearchRequest.mk query (Some "advanced") (Some 8%Z) (Some true) (Some false) (Some false)
    None None.

(** [request] with [max_results] replaced. *)
Definition with_max_results (n : option Z) (request : SearchRequest.t) : SearchRequest.t :=
  SearchRequest.mk (SearchRequest.query request) (SearchRequest.search_depth request) n
    (SearchRequest.include_answer request) (SearchRequest.include_raw_content request)
    (SearchRequest.include_images request) (SearchRequest.include_domains request)
    (SearchRequest.exclude_domains request).

(** [request] with [search_depth] replaced. *)
Definition with_search_depth (sd : option string) (request : SearchRequest.t)
    : SearchRequest.t :=
  SearchRequest.mk (SearchRequest.query request) sd (SearchRequest.max_results request)
    (SearchRequest.include_answer request) (SearchRequest.include_raw_content request)
    (SearchRequest.include_images request) (SearchRequest.include_domains request)
    (SearchRequest.exclude_domains request).

(** [request] with [include_domains] replaced. *)
Definition with_include_domains (ds : option (list string)) (request : SearchRequest.t)
    : SearchRequest.t :=
  SearchRequest.mk (SearchRequest.query request) (SearchRequest.search_depth request)
    (SearchRequest.max_results request) (SearchRequest.include_answer request)
    (SearchRequest.include_raw_content request) (SearchRequest.include_images request)
    ds (SearchRequest.exclude_domains request).

(** [request] with [exclude_domains] replaced. *)
Definition with_exclude_domains (ds : option (list string)) (request : SearchRequest.t)
    : SearchRequest.t :=
  SearchRequest.mk (SearchRequest.query request) (SearchRequest.search_depth request)
    (SearchRequest.max_results request) (SearchRequest.include_answer request)
    (SearchRequest.include_raw_content request) (SearchRequest.include_images request)
    (SearchRequest.include_domains request) ds.

(** A result entry of the provider is a dict with the four required keys. *)
Definition has_required_fields (r : pyval) : bool :=
  match r with
  | PDict d =>
      bool_decide (is_Some (d !! "title")) && bool_decide (is_Some (d !! "url"))
      && bool_decide (is_Some (d !! "content")) && bool_decide (is_Some (d !! "score"))
  | _ => false
  end.

(** The entries of the provider's reply that [perform_search] visits. *)
Definition reply_results (response : pyval) : result (list pyval) :=
  results ← get response "results" (PList []);
  iter results.

(** The fields of [sr] are the validated fields of the entry [r]. *)
Definition structured_from (P : Pydantic) (r : pyval) (sr : SearchResult.t) : Prop :=
  ∃ d, r = PDict d
    ∧ required (str_validator P) (d !! "title") = Some (SearchResult.title sr)
    ∧ required (str_validator P) (d !! "url") = Some (SearchResult.url sr)
    ∧ required (str_validator P) (d !! "content") = Some (SearchResult.content sr)
    ∧ required (float_validator P) (d !! "score") = Some (SearchResult.score sr)
    ∧ optional (str_validator P) None (Some (default PNone (d !! "published_date")))
      = Some (SearchResult.published_date sr).

(** The entry [d] holds the fields of [sr] as they are: three strings and a
    float, and [published_date] as a string, as [None] or not at all. *)
Definition field_copy (d : gmap string pyval) (sr : SearchResult.t) : Prop :=
  d !! "title" = Some (PStr (SearchResult.title sr))
  ∧ d !! "url" = Some (PStr (SearchResult.url sr))
  ∧ d !! "content" = Some (PStr (SearchResult.content sr))
  ∧ d !! "score" = Some (PFloat (SearchResult.score sr))
  ∧ default PNone (d !! "published_date") = py_option PStr (SearchResult.published_date sr).

(** ** Test doubles (test_app.py) *)

(** The reply of [MockTavily] in [test_search_endpoint]: one result, whose
    score is 0.9. *)
Definition mock_result : gmap string pyval :=
  <["score" := PFloat 0x1.ccccccccccccdp-1%float]>
  (<["content" := PStr "..."]>
  (<["url" := PStr "http://test.com"]>
  {["title" := PStr "Test"]})).

Definition mock_reply (query : string) : gmap string pyval :=
  <["results" := PList [PDict mock_result]]>
  (<["answer" := PStr "Mock answer"]> {["query" := PStr query]}).

Definition mock_response (query : string) : pyval := PDict (mock_reply query).

(** The first payload of [test_search_endpoint], validated. *)
Definition robotics_request : SearchRequest.t :=
  SearchRequest.mk "latest robotics 2025" (Some "advanced") (Some 5%Z) (Some true)
    (Some false) (Some false) None None.

(** A reply whose second entry has a title and nothing else. *)
Definition incomplete_response : pyval :=
  PDict {["results" := PList [PDict mock_result; PDict {["title" := PStr "Test"]}]]}.

(** A reply without results whose answer is a list. *)
Definition malformed_answer_response : pyval :=
  PDict (<["answer" := PList []]> {["results" := PList []]}).

Definition MockTavily (reply : pyval) : TavilyClient := {| search := λ _ _, inr reply |}.

(** [MockTavilyError] of [test_quick_search_error_handling]. *)
Definition MockTavilyError (description : string) : TavilyClient :=
  {| search := λ _ _, raise (Raise "Exception" description) |}.

(** A client that cannot reach the provider, whatever its key. *)
Definition offline_client (api_key : string) : TavilyClient :=
  MockTavilyError "Tavily API is down".

(** * Properties *)

(** ** The provider call *)

Lemma search_params_scalar request :
  search_params request !! "search_depth"
    = Some (py_option PStr (SearchRequest.search_depth request))
  ∧ search_params request !! "max_results"
    = Some (py_option PInt (SearchRequest.max_results request))
  ∧ search_params request !! "include_answer"
    = Some (py_option PBool (SearchRequest.include_answer request))
  ∧ search_params request !! "include_raw_content"
    = Some (py_option PBool (SearchRequest.include_raw_content request))
  ∧ search_params request !! "include_images"
    = Some (py_option PBool (SearchRequest.include_images request)).
Proof.
  unfold search_params.
  destruct (truthy (SearchRequest.include_domains request)),
    (truthy (SearchRequest.exclude_domains request)); repeat split; reflexivity.
Qed.

Lemma search_params_include_domains request :
  search_params request !! "include_domains"
  = if truthy (SearchRequest.include_domains request)
    then Some (py_option py_strs (SearchRequest.include_domains request))
    else None.
Proof.
  unfold search_params.
  destruct (truthy (SearchRequest.include_domains request)),
    (truthy (SearchRequest.exclude_domains request)); reflexivity.
Qed.

Lemma search_params_exclude_domains request :
  search_params request !! "exclude_domains"
  = if truthy (SearchRequest.exclude_domains request)
    then Some (py_option py_strs (SearchRequest.exclude_domains request))
    else None.
Proof.
  unfold search_params.
  destruct (truthy (SearchRequest.include_domains request)),
    (truthy (SearchRequest.exclude_domains request)); reflexivity.
Qed.

Lemma search_params_dom request :
  dom (search_params request)
  = {["search_depth"; "max_results"; "include_answer"; "include_raw_content";
      "include_images"]}
    ∪ (if truthy (SearchRequest.include_domains request) then {["include_domains"]} else ∅)
    ∪ (if truthy (SearchRequest.exclude_domains request) then {["exclude_domains"]} else ∅).
Proof.
  unfold search_params.
  destruct (truthy (SearchRequest.include_domains request)),
    (truthy (SearchRequest.exclude_domains request));
    rewrite ?dom_insert_L, ?dom_singleton_L; set_solver.
Qed.

(** The handler invokes the provider once, first of all, and what it returns
    is decided by the provider's answer to that call. *)
Lemma perform_search_eq P tavily request log :
  perform_search P tavily request log
  = (match search tavily (SearchRequest.query request) (search_params request) with
     | inl e => HTTPException 500 ("Tavily search error: " +:+ exn_str e)
     | inr response =>
         match structured P request response with
         | inl e => HTTPException 500 ("Tavily search error: " +:+ exn_str e)
         | inr resp => Return resp
         end
     end, log ++ [search_call request]).
Proof.
  unfold perform_search, try_except, invoke, lift, search_call, mbind, M_bind.
  destruct (search tavily _ _) as [e|response]; [reflexivity|].
  destruct (structured P request response); reflexivity.
Qed.

Lemma perform_search_log P tavily request log :
  snd (perform_search P tavily request log) = log ++ [search_call request].
Proof. by rewrite perform_search_eq. Qed.

Lemma quick_search_raises tavily query log e :
  search tavily query ∅ = inl e →
  quick_search tavily query log
  = (HTTPException 500 ("Quick search error: " +:+ exn_str e), log ++ [Call query ∅]).
Proof.
  intros He. unfold quick_search, try_except, invoke, mbind, M_bind.
  by rewrite He.
Qed.

Lemma append_empty (s : string) : s +:+ "" = s.
Proof.
  induction s as [|c s IH]; [done|].
  change (String c (s +:+ "") = String c s). by rewrite IH.
Qed.

Lemma contains_suffix pre s : contains s (pre +:+ s).
Proof. exists pre, "". by rewrite append_empty. Qed.

(** C2, as the spec states it, fails: a request that leaves every option at
    its default still sends the five scalar options to the provider. *)
Lemma default_options_are_sent :
  SearchRequest_validate strict (PDict {["query" := PStr "q"]}) = inr (default_request "q")
  ∧ snd (perform_search strict (MockTavily (mock_response "q")) (default_request "q") [])
    = [search_call (default_request "q")]
  ∧ call_kwargs (search_call (default_request "q")) !! "search_depth"
    = Some (PStr "advanced")
  ∧ call_kwargs (search_call (default_request "q")) !! "max_results" = Some (PInt 8)
  ∧ call_kwargs (search_call (default_request "q")) !! "include_answer"
    = Some (PBool true)
  ∧ call_kwargs (search_call (default_request "q")) !! "include_raw_content"
    = Some (PBool false)
  ∧ call_kwargs (search_call (default_request "q")) !! "include_images"
    = Some (PBool false).
Proof. by repeat (split; [vm_compute; reflexivity|]). Qed.

(** C2, amended: the provider call carries the request's query and always
    the five scalar options [search_depth], [max_results], [include_answer],
    [include_raw_content] and [include_images] with the request's values,
    defaults included; [include_domains] and [exclude_domains] are keys of the
    call exactly when their value is a non-empty list, and the call has no
    other key. *)
Theorem search_call_parameters P tavily request log :
  snd (perform_search P tavily request log)
  = log ++ [Call (SearchRequest.query request) (search_params request)]
  ∧ search_params request !! "search_depth"
    = Some (py_option PStr (SearchRequest.search_depth request))
  ∧ search_params request !! "max_results"
    = Some (py_option PInt (SearchRequest.max_results request))
  ∧ search_params request !! "include_answer"
    = Some (py_option PBool (SearchRequest.include_answer request))
  ∧ search_params request !! "include_raw_content"
    = Some (py_option PBool (SearchRequest.include_raw_content request))
  ∧ search_params request !! "include_images"
    = Some (py_option PBool (SearchRequest.include_images request))
  ∧ search_params request !! "include_domains"
    = (if truthy (SearchRequest.include_domains request)
       then Some (py_option py_strs (SearchRequest.include_domains request)) else None)
  ∧ search_params request !! "exclude_domains"
    = (if truthy (SearchRequest.exclude_domains request)
       then Some (py_option py_strs (SearchRequest.exclude_domains request)) else None)
  ∧ dom (search_params request)
    = {["search_depth"; "max_results"; "include_answer"; "include_raw_content";
        "include_images"]}
      ∪ (if truthy (SearchRequest.include_domains request) then {["include_domains"]} else ∅)
      ∪ (if truthy (SearchRequest.exclude_domains request) then {["exclude_domains"]} else ∅).
Proof.
  split; [apply perform_search_log|].
  pose proof (search_params_scalar request) as (Hsd & Hmr & Hia & Hirc & Hii).
  pose proof (search_params_include_domains request) as Hin.
  pose proof (search_params_exclude_domains request) as Hex.
  pose proof (search_params_dom request) as Hdom.
  by repeat (split; [assumption|]).
Qed.

(** C4: when [include_domains] (or [exclude_domains]) of a validated request
    is absent, the provider call the handler makes does not have that key. *)
Theorem absent_domains_not_sent P tavily request log :
  ∃ kwargs,
    snd (perform_search P tavily request log)
    = log ++ [Call (SearchRequest.query request) kwargs]
    ∧ (SearchRequest.include_domains request = None → kwargs !! "include_domains" = None)
    ∧ (SearchRequest.exclude_domains request = None → kwargs !! "exclude_domains" = None).
Proof.
  exists (search_params request).
  split; [apply perform_search_log|]. split; intros Habsent.
  - by rewrite search_params_include_domains, Habsent.
  - by rewrite search_params_exclude_domains, Habsent.
Qed.

Lemma absent_domains_not_sent_witness :
  ∃ kwargs,
    snd (perform_search strict (MockTavily (mock_response "q")) (default_request "q") [])
    = [Call "q" kwargs]
    ∧ kwargs !! "include_domains" = None ∧ kwargs !! "exclude_domains" = None.
Proof.
  destruct (absent_domains_not_sent strict (MockTavily (mock_response "q"))
              (default_request "q") []) as (kwargs & Hlog & Hin & Hex).
  exists kwargs. split; [exact Hlog|]. split; [apply Hin | apply Hex]; reflexivity.
Defined.

(** C10: a request whose [include_domains] (or [exclude_domains]) is the
    empty list is served exactly as the request that leaves the field out,
    and the key is not in the provider call: the test is on the value being
    non-empty, not on the field having been supplied.  (A supplied empty
    list validates to the empty list, a field left out to [None].) *)
Theorem empty_domains_as_absent P tavily q sd mr ia irc ii ds log :
  (perform_search P tavily (SearchRequest.mk q sd mr ia irc ii (Some []) ds) log
   = perform_search P tavily (SearchRequest.mk q sd mr ia irc ii None ds) log
   ∧ search_params (SearchRequest.mk q sd mr ia irc ii (Some []) ds) !! "include_domains"
     = None)
  ∧ (perform_search P tavily (SearchRequest.mk q sd mr ia irc ii ds (Some [])) log
     = perform_search P tavily (SearchRequest.mk q sd mr ia irc ii ds None) log
     ∧ search_params (SearchRequest.mk q sd mr ia irc ii ds (Some [])) !! "exclude_domains"
       = None)
  ∧ optional (list_validator (str_validator P)) None (Some (PList [])) = Some (Some [])
  ∧ optional (list_validator (str_validator P)) None None = Some None.
Proof.
  split; [|split; [|done]]; (split; [by rewrite !perform_search_eq|]).
  - by rewrite search_params_include_domains.
  - by rewrite search_params_exclude_domains.
Qed.

(** ** Provider failures *)

(** C5: when the provider call raises, [perform_search] and [quick_search]
    both end in [HTTPException] with status 500 whose detail contains the
    description of what the provider raised; the provider has been invoked
    once, and nothing is returned. *)
Theorem provider_failure_is_upstream_error P tavily e :
  (∀ request log,
     search tavily (SearchRequest.query request) (search_params request) = inl e →
     ∃ detail,
       perform_search P tavily request log
       = (HTTPException 500 detail, log ++ [search_call request])
       ∧ contains (exn_str e) detail)
  ∧ (∀ query log,
       search tavily query ∅ = inl e →
       ∃ detail,
         quick_search tavily query log
         = (HTTPException 500 detail, log ++ [Call query ∅])
         ∧ contains (exn_str e) detail).
Proof.
  split.
  - intros request log He. eexists. split.
    + rewrite perform_search_eq, He. reflexivity.
    + apply contains_suffix.
  - intros query log He. eexists. split.
    + by apply quick_search_raises.
    + apply contains_suffix.
Qed.

Lemma provider_failure_is_upstream_error_witness :
  (∃ detail,
     perform_search strict (MockTavilyError "Tavily API is down") (default_request "q") []
     = (HTTPException 500 detail, [search_call (default_request "q")])
     ∧ contains "Tavily API is down" detail)
  ∧ (∃ detail,
       quick_search (MockTavilyError "Tavily API is down") "anything" []
       = (HTTPException 500 detail, [Call "anything" ∅])
       ∧ contains "Tavily API is down" detail).
Proof.
  destruct (provider_failure_is_upstream_error strict
              (MockTavilyError "Tavily API is down")
              (Raise "Exception" "Tavily API is down")) as [Hsearch Hquick].
  split.
  - apply (Hsearch (default_request "q") []). reflexivity.
  - apply (Hquick "anything" []). reflexivity.
Defined.

(** ** Module initialisation *)

Lemma import_app_empty_key TavilyClient_new dotenv environ :
  load_dotenv dotenv environ !! "TAVILY_API_KEY" = Some "" →
  import_app TavilyClient_new dotenv environ
  = inl (ValueError "TAVILY_API_KEY not set in environment variables").
Proof. intros Hkey. unfold import_app. by rewrite Hkey. Qed.

(** C6: when [TAVILY_API_KEY] is not in the environment once the [.env]
    file has been loaded, importing the application raises [ValueError], and
    the process ends with that error whatever requests are sent to it: none
    is answered, not even with an error response. *)
Theorem missing_credential_aborts_startup P TavilyClient_new dotenv environ :
  load_dotenv dotenv environ !! "TAVILY_API_KEY" = None →
  import_app TavilyClient_new dotenv environ
  = inl (ValueError "TAVILY_API_KEY not set in environment variables")
  ∧ ∀ rs, run P TavilyClient_new dotenv environ rs
          = inl (ValueError "TAVILY_API_KEY not set in environment variables").
Proof.
  intros Habsent.
  assert (import_app TavilyClient_new dotenv environ
          = inl (ValueError "TAVILY_API_KEY not set in environment variables")) as Himport.
  { unfold import_app. by rewrite Habsent. }
  split; [exact Himport|].
  intros rs. unfold run. by rewrite Himport.
Qed.

Lemma missing_credential_aborts_startup_witness :
  import_app offline_client ∅ {["PATH" := "/usr/bin"]}
  = inl (ValueError "TAVILY_API_KEY not set in environment variables")
  ∧ ∀ rs, run strict offline_client ∅ {["PATH" := "/usr/bin"]} rs
          = inl (ValueError "TAVILY_API_KEY not set in environment variables").
Proof.
  apply (missing_credential_aborts_startup strict offline_client ∅ {["PATH" := "/usr/bin"]}).
  reflexivity.
Defined.

(** ** The list comprehension *)

Lemma mapM_inr {A B} (f : A → result B) (l : list A) (k : list B) :
  mapM f l = inr k ↔ Forall2 (λ x y, f x = inr y) l k.
Proof.
  revert k. induction l as [|x l IH]; intros k.
  - split.
    + intros [= <-]. constructor.
    + by inversion 1.
  - cbn [mapM]. unfold mbind, result_bind.
    destruct (f x) as [e|y] eqn:Hx.
    + split; [done|]. inversion 1 as [|? ? ? ? Hy Hrest]; subst. simpl in Hy. congruence.
    + destruct (mapM f l) as [e|ys] eqn:Hl.
      * split; [done|]. inversion 1 as [|? ? ? ys' Hy Hrest]; subst.
        apply IH in Hrest. congruence.
      * split.
        -- intros [= <-]. constructor; [done|]. by apply IH.
        -- inversion 1 as [|? y' ? ys' Hy Hrest]; subst. simpl in Hy.
           apply IH in Hrest. unfold mret, result_ret. congruence.
Qed.

Lemma mapM_inl {A B} (f : A → result B) (l : list A) (x : A) (e : exn) :
  x ∈ l → f x = inl e → ∃ e', mapM f l = inl e'.
Proof.
  intros Hin He. destruct (mapM f l) as [e'|k] eqn:Hl; [by exists e'|].
  apply mapM_inr in Hl.
  apply list_elem_of_lookup_1 in Hin as [i Hi].
  destruct (Forall2_lookup_l _ _ _ _ _ Hl Hi) as (y & _ & Hy).
  simpl in Hy. congruence.
Qed.

(** ** Reshaping the reply *)

Lemma result_bind_inr {A B} (x : A) (f : A → result B) : (inr x : result A) ≫= f = f x.
Proof. reflexivity. Qed.

Lemma result_bind_mret {A B} (x : A) (f : A → result B) : mret x ≫= f = f x.
Proof. reflexivity. Qed.

Lemma SearchResult_new_inr P t u c s pd sr :
  SearchResult_new P t u c s pd = inr sr
  ↔ required (str_validator P) (Some t) = Some (SearchResult.title sr)
    ∧ required (str_validator P) (Some u) = Some (SearchResult.url sr)
    ∧ required (str_validator P) (Some c) = Some (SearchResult.content sr)
    ∧ required (float_validator P) (Some s) = Some (SearchResult.score sr)
    ∧ optional (str_validator P) None (Some pd) = Some (SearchResult.published_date sr).
Proof.
  unfold SearchResult_new.
  destruct (required (str_validator P) (Some t)) as [t'|],
    (required (str_validator P) (Some u)) as [u'|],
    (required (str_validator P) (Some c)) as [c'|],
    (required (float_validator P) (Some s)) as [s'|],
    (optional (str_validator P) None (Some pd)) as [pd'|]; cbn;
    try (split; [intros [=] | intros (? & ? & ? & ? & ?); discriminate]).
  split.
  - by intros [= <-].
  - intros (? & ? & ? & ? & ?). destruct sr. cbn in *. unfold mret, result_ret. congruence.
Qed.

Lemma structure_inr P r sr : structure P r = inr sr ↔ structured_from P r sr.
Proof.
  unfold structure, structured_from. destruct r as [| | | | | |d].
  1-6: split; [by cbn | by intros (? & ? & _)].
  cbn [getitem get]. unfold mbind, result_bind.
  split.
  - intros Hs. exists d. split; [done|].
    destruct (d !! "title") as [t|]; [|done].
    destruct (d !! "url") as [u|]; [|done].
    destruct (d !! "content") as [c|]; [|done].
    destruct (d !! "score") as [s|]; [|done].
    cbn in Hs. by apply SearchResult_new_inr in Hs.
  - intros (d' & [= <-] & Ht & Hu & Hc & Hs & Hpd).
    destruct (d !! "title") as [t|]; [|done].
    destruct (d !! "url") as [u|]; [|done].
    destruct (d !! "content") as [c|]; [|done].
    destruct (d !! "score") as [s|]; [|done].
    cbn. by apply SearchResult_new_inr.
Qed.

Lemma structured_from_required P r sr :
  structured_from P r sr → has_required_fields r = true.
Proof.
  intros (d & -> & Ht & Hu & Hc & Hs & _). cbn.
  destruct (d !! "title"); [|done]. destruct (d !! "url"); [|done].
  destruct (d !! "content"); [|done]. destruct (d !! "score"); [|done].
  rewrite !bool_decide_eq_true_2; by eauto.
Qed.

Lemma structure_incomplete P r :
  has_required_fields r = false → ∃ e, structure P r = inl e.
Proof.
  intros Hr. destruct (structure P r) as [e|sr] eqn:Hs; [by exists e|].
  apply structure_inr, structured_from_required in Hs. congruence.
Qed.

Lemma structured_inr P request response resp :
  structured P request response = inr resp
  ↔ ∃ d entries,
      response = PDict d
      ∧ iter (default (PList []) (d !! "results")) = inr entries
      ∧ Forall2 (structured_from P) entries (SearchResponse.results resp)
      ∧ optional (str_validator P) None (Some (default PNone (d !! "answer")))
        = Some (SearchResponse.answer resp)
      ∧ SearchResponse.query resp = SearchRequest.query request.
Proof.
  unfold structured. destruct response as [| | | | | |d].
  1-6: split; [by cbn | by intros (? & ? & ? & _)].
  cbn [get]. rewrite !result_bind_mret.
  split.
  - intros Hs. exists d.
    destruct (iter (default (PList []) (d !! "results"))) as [e|entries]; [done|].
    exists entries. split; [done|]. split; [done|].
    rewrite result_bind_inr in Hs.
    destruct (mapM (structure P) entries) as [e|srs] eqn:Hm; [done|].
    apply mapM_inr in Hm. rewrite result_bind_inr, result_bind_mret in Hs.
    unfold SearchResponse_new in Hs.
    destruct (optional _ _ _) as [a|]; [|done].
    injection Hs as <-. cbn. split; [|done].
    eapply Forall2_impl; [exact Hm|]. intros r sr. apply structure_inr.
  - intros (d' & entries & [= <-] & Hit & Hall & Ha & Hq).
    assert (mapM (structure P) entries = inr (SearchResponse.results resp)) as Hm.
    { apply mapM_inr. eapply Forall2_impl; [exact Hall|]. intros r sr. apply structure_inr. }
    rewrite Hit, result_bind_inr, Hm, result_bind_inr, result_bind_mret.
    unfold SearchResponse_new. rewrite Ha. destruct resp. cbn in *. by rewrite Hq.
Qed.

Lemma field_copy_structured_from P d sr : field_copy d sr → structured_from P (PDict d) sr.
Proof.
  intros (Ht & Hu & Hc & Hs & Hpd). exists d.
  rewrite Ht, Hu, Hc, Hs, Hpd. cbn [required].
  rewrite !str_validator_str, float_validator_float.
  repeat (split; [reflexivity|]).
  destruct (SearchResult.published_date sr) as [pd|]; cbn; [|done].
  by rewrite str_validator_str.
Qed.

Lemma optional_py_option P (a : option string) :
  optional (str_validator P) None (Some (py_option PStr a)) = Some a.
Proof. destruct a as [s|]; cbn; [|done]. by rewrite str_validator_str. Qed.

(** A reply whose entries hold the fields of [srs] as they are, and whose
    answer is a string, [None] or missing, is returned reshaped. *)
Lemma perform_search_field_copy P tavily request log d ds srs a :
  search tavily (SearchRequest.query request) (search_params request) = inr (PDict d) →
  default (PList []) (d !! "results") = PList (PDict <$> ds) →
  Forall2 field_copy ds srs →
  default PNone (d !! "answer") = py_option PStr a →
  perform_search P tavily request log
  = (Return (SearchResponse.mk (SearchRequest.query request) a srs),
     log ++ [search_call request]).
Proof.
  intros Hreply Hresults Hcopy Hanswer.
  rewrite perform_search_eq, Hreply.
  assert (structured P request (PDict d)
          = inr (SearchResponse.mk (SearchRequest.query request) a srs)) as ->; [|done].
  apply structured_inr. exists d, (PDict <$> ds).
  split; [done|]. split; [by rewrite Hresults|]. cbn.
  split; [|split; [|done]].
  - apply Forall2_fmap_l. eapply Forall2_impl; [exact Hcopy|].
    intros d' sr. apply field_copy_structured_from.
  - rewrite Hanswer. apply optional_py_option.
Qed.

Lemma structured_reply_results P request response resp :
  structured P request response = inr resp →
  ∃ entries,
    reply_results response = inr entries
    ∧ Forall2 (structured_from P) entries (SearchResponse.results resp).
Proof.
  intros (d & entries & -> & Hit & Hall & _)%structured_inr.
  exists entries. by split.
Qed.

(** C1: [perform_search] either ends in the upstream error, or returns a
    response that has one result for every entry of the provider's reply,
    each entry carrying all four required fields; a reply with an entry that
    lacks one makes the whole call fail. *)
Theorem perform_search_all_or_nothing P tavily request log :
  ((∃ detail,
      perform_search P tavily request log
      = (HTTPException 500 detail, log ++ [search_call request]))
   ∨ (∃ response entries resp,
        search tavily (SearchRequest.query request) (search_params request) = inr response
        ∧ reply_results response = inr entries
        ∧ perform_search P tavily request log
          = (Return resp, log ++ [search_call request])
        ∧ length (SearchResponse.results resp) = length entries
        ∧ Forall (λ r, has_required_fields r = true) entries))
  ∧ (∀ response entries r,
       search tavily (SearchRequest.query request) (search_params request) = inr response →
       reply_results response = inr entries →
       r ∈ entries →
       has_required_fields r = false →
       ∃ detail,
         perform_search P tavily request log
         = (HTTPException 500 detail, log ++ [search_call request])).
Proof.
  rewrite perform_search_eq.
  destruct (search tavily _ _) as [e|response] eqn:Hreply.
  { split; [left; by eexists|]. intros; by eexists. }
  destruct (structured P request response) as [e|resp] eqn:Hs.
  { split; [left; by eexists|]. intros; by eexists. }
  destruct (structured_reply_results _ _ _ _ Hs) as (entries & Hentries & Hall).
  assert (Forall (λ r, has_required_fields r = true) entries) as Hcomplete.
  { apply Forall_forall. intros r Hr.
    apply list_elem_of_lookup_1 in Hr as [i Hi].
    destruct (Forall2_lookup_l _ _ _ _ _ Hall Hi) as (sr & _ & Hsr).
    by eapply structured_from_required. }
  split.
  - right. exists response, entries, resp.
    repeat (split; [done|]). split; [|done].
    symmetry. by eapply Forall2_length.
  - intros response' entries' r [= <-] Hentries' Hr Hincomplete.
    rewrite Hentries in Hentries'. injection Hentries' as <-.
    rewrite Forall_forall in Hcomplete. specialize (Hcomplete r Hr). congruence.
Qed.

(** C7: when the provider replies, what [perform_search] returns has the
    request's query, the reply's answer and one result per entry of the
    reply, in the reply's order, with each field taken from the entry's
    field of the same name; and a reply that holds its fields as they are
    typed ([published_date] and [answer] possibly missing or [None]) is
    returned with exactly those fields. *)
Theorem perform_search_maps_reply P tavily request log response :
  search tavily (SearchRequest.query request) (search_params request) = inr response →
  (∀ resp,
     fst (perform_search P tavily request log) = Return resp →
     SearchResponse.query resp = SearchRequest.query request
     ∧ ∃ d entries,
         response = PDict d
         ∧ iter (default (PList []) (d !! "results")) = inr entries
         ∧ optional (str_validator P) None (Some (default PNone (d !! "answer")))
           = Some (SearchResponse.answer resp)
         ∧ Forall2 (structured_from P) entries (SearchResponse.results resp))
  ∧ (∀ d ds srs a,
       response = PDict d →
       default (PList []) (d !! "results") = PList (PDict <$> ds) →
       Forall2 field_copy ds srs →
       default PNone (d !! "answer") = py_option PStr a →
       perform_search P tavily request log
       = (Return (SearchResponse.mk (SearchRequest.query request) a srs),
          log ++ [search_call request])).
Proof.
  intros Hreply. split.
  - intros resp. rewrite perform_search_eq, Hreply. cbn [fst].
    destruct (structured P request response) as [e|resp'] eqn:Hs; [done|].
    intros [= ->].
    apply structured_inr in Hs as (d & entries & -> & Hit & Hall & Ha & Hq).
    split; [done|]. by exists d, entries.
  - intros d ds srs a -> Hresults Hcopy Hanswer.
    by eapply perform_search_field_copy.
Qed.

Lemma perform_search_all_or_nothing_witness :
  ∃ detail,
    perform_search strict (MockTavily incomplete_response) robotics_request []
    = (HTTPException 500 detail, [search_call robotics_request]).
Proof.
  apply (proj2 (perform_search_all_or_nothing strict (MockTavily incomplete_response)
                  robotics_request [])
           incomplete_response
           [PDict mock_result; PDict {["title" := PStr "Test"]}]
           (PDict {["title" := PStr "Test"]})).
  - reflexivity.
  - reflexivity.
  - right. left.
  - reflexivity.
Defined.

Lemma perform_search_maps_reply_witness :
  perform_search strict (MockTavily (mock_response "latest robotics 2025"))
    robotics_request []
  = (Return (SearchResponse.mk "latest robotics 2025" (Some "Mock answer")
               [SearchResult.mk "Test" "http://test.com" "..."
                  0x1.ccccccccccccdp-1%float None]),
     [search_call robotics_request]).
Proof.
  apply (proj2 (perform_search_maps_reply strict
                  (MockTavily (mock_response "latest robotics 2025")) robotics_request []
                  (mock_response "latest robotics 2025") eq_refl)
           (mock_reply "latest robotics 2025") [mock_result]).
  - reflexivity.
  - reflexivity.
  - constructor; [|constructor]. by repeat (split; [reflexivity|]).
  - reflexivity.
Defined.

(** A malformed reply stays an upstream failure when its result list is
    empty: an answer that is a list, which no Pydantic takes for a string,
    ends in the upstream error. *)
Lemma empty_results_malformed_answer_fails :
  reply_results malformed_answer_response = inr []
  ∧ status (fst (perform_search strict (MockTavily malformed_answer_response)
                   robotics_request [])) = 500%Z.
Proof. split; vm_compute; reflexivity. Qed.

(** C8: for a provider reply whose result list is empty (a reply of the
    provider's contract: its answer is missing, [None] or a string),
    [perform_search] returns a response with that answer and no results,
    with status 200, not an error. *)
Theorem empty_results_success P tavily request log d a :
  search tavily (SearchRequest.query request) (search_params request) = inr (PDict d) →
  d !! "results" = Some (PList []) →
  default PNone (d !! "answer") = py_option PStr a →
  perform_search P tavily request log
  = (Return (SearchResponse.mk (SearchRequest.query request) a []),
     log ++ [search_call request])
  ∧ status (fst (perform_search P tavily request log)) = 200%Z.
Proof.
  intros Hreply Hresults Hanswer.
  assert (perform_search P tavily request log
          = (Return (SearchResponse.mk (SearchRequest.query request) a []),
             log ++ [search_call request])) as ->; [|done].
  apply (perform_search_field_copy P tavily request log d [] [] a);
    [done | by rewrite Hresults | constructor | done].
Qed.

Lemma empty_results_success_witness :
  perform_search strict (MockTavily (PDict {["results" := PList []]})) robotics_request []
  = (Return (SearchResponse.mk "latest robotics 2025" None []),
     [search_call robotics_request])
  ∧ status (fst (perform_search strict (MockTavily (PDict {["results" := PList []]}))
                   robotics_request [])) = 200%Z.
Proof.
  apply (empty_results_success strict (MockTavily (PDict {["results" := PList []]}))
           robotics_request [] {["results" := PList []]} None); reflexivity.
Defined.

(** ** Request validation *)

Lemma validate_query_only P q :
  SearchRequest_validate P (PDict {["query" := PStr q]}) = inr (default_request q).
Proof.
  unfold SearchRequest_validate.
  rewrite lookup_singleton_eq, !lookup_singleton_ne by done.
  cbn [required optional]. by rewrite str_validator_str.
Qed.

Lemma validate_missing_query P d :
  d !! "query" = None →
  ∃ fields, SearchRequest_validate P (PDict d) = inl ("query" :: fields).
Proof.
  intros Hmissing. unfold SearchRequest_validate. rewrite Hmissing.
  cbn [required]. by eexists.
Qed.

(** C3: a body without [query] is refused with status 422 before the
    provider is invoked.  A body whose [query] is the empty string is not
    refused: it validates, the handler runs, the provider is invoked with
    the empty query, and with the test's mock the status is 200 where
    [test_search_endpoint] expects 422. *)
Theorem empty_query_is_accepted P tavily log :
  (∀ d, d !! "query" = None →
        ∃ fields,
          post_search P tavily (PDict d) log = (RequestValidationError fields, log)
          ∧ "query" ∈ fields
          ∧ status (fst (post_search P tavily (PDict d) log)) = 422%Z)
  ∧ SearchRequest_validate P (PDict {["query" := PStr ""]}) = inr (default_request "")
  ∧ snd (post_search P tavily (PDict {["query" := PStr ""]}) log)
    = log ++ [Call "" (search_params (default_request ""))]
  ∧ status (fst (post_search P (MockTavily (mock_response ""))
                   (PDict {["query" := PStr ""]}) log)) = 200%Z.
Proof.
  split; [|split; [|split]].
  - intros d [fields Hfields]%(validate_missing_query P).
    exists ("query" :: fields). unfold post_search. rewrite Hfields.
    split; [done|]. split; [by left|done].
  - apply validate_query_only.
  - unfold post_search. rewrite validate_query_only. apply perform_search_log.
  - unfold post_search. rewrite validate_query_only.
    rewrite (perform_search_field_copy P (MockTavily (mock_response "")) (default_request "")
               log (mock_reply "") [mock_result]
               [SearchResult.mk "Test" "http://test.com" "..."
                  0x1.ccccccccccccdp-1%float None] (Some "Mock answer"));
      [reflexivity | reflexivity | reflexivity | | reflexivity].
    constructor; [|constructor]. by repeat (split; [reflexivity|]).
Qed.

Lemma empty_query_is_accepted_witness :
  (∃ fields,
     post_search strict (MockTavily (mock_response "")) (PDict ∅) []
     = (RequestValidationError fields, [])
     ∧ "query" ∈ fields
     ∧ status (fst (post_search strict (MockTavily (mock_response "")) (PDict ∅) []))
       = 422%Z)
  ∧ snd (post_search strict (MockTavily (mock_response ""))
           (PDict {["query" := PStr ""]}) [])
    = [Call "" (search_params (default_request ""))].
Proof.
  destruct (empty_query_is_accepted strict (MockTavily (mock_response "")) [])
    as (Hmissing & _ & Hcall & _).
  split; [|exact Hcall].
  apply (Hmissing ∅). reflexivity.
Defined.

(** C9, as the spec states it, fails: a body that supplies zero or a negative
    number for [max_results] validates, and the request carries it. *)
Lemma non_positive_max_results_validates :
  SearchRequest_validate strict (PDict (<["max_results" := PInt 0]> {["query" := PStr "q"]}))
  = inr (with_max_results (Some 0%Z) (default_request "q"))
  ∧ SearchRequest_validate strict
      (PDict (<["max_results" := PInt (-5)]> {["query" := PStr "q"]}))
    = inr (with_max_results (Some (-5)%Z) (default_request "q")).
Proof. split; vm_compute; reflexivity. Qed.

(** C9, amended: [max_results] is 8 when the body does not supply it, and a
    body that validates still validates when [max_results] is set to any
    integer, positive or not, the request carrying that integer. *)
Theorem max_results_any_integer P d request :
  SearchRequest_validate P (PDict d) = inr request →
  (d !! "max_results" = None → SearchRequest.max_results request = Some 8%Z)
  ∧ (∀ n, SearchRequest_validate P (PDict (<["max_results" := PInt n]> d))
          = inr (with_max_results (Some n) request)).
Proof.
  unfold SearchRequest_validate. intros Hvalid.
  destruct (required (str_validator P) (d !! "query")) as [q|] eqn:Hq; [|done].
  destruct (optional (str_validator P) (Some "advanced") (d !! "search_depth"))
    as [sd|] eqn:Hsd; [|done].
  destruct (optional (int_validator P) (Some 8%Z) (d !! "max_results"))
    as [mr|] eqn:Hmr; [|done].
  destruct (optional (bool_validator P) (Some true) (d !! "include_answer"))
    as [ia|] eqn:Hia; [|done].
  destruct (optional (bool_validator P) (Some false) (d !! "include_raw_content"))
    as [irc|] eqn:Hirc; [|done].
  destruct (optional (bool_validator P) (Some false) (d !! "include_images"))
    as [ii|] eqn:Hii; [|done].
  destruct (optional (list_validator (str_validator P)) None (d !! "include_domains"))
    as [ind|] eqn:Hind; [|done].
  destruct (optional (list_validator (str_validator P)) None (d !! "exclude_domains"))
    as [exd|] eqn:Hexd; [|done].
  cbn in Hvalid. injection Hvalid as <-. split.
  - intros Habsent. rewrite Habsent in Hmr. cbn in Hmr. cbn. congruence.
  - intros n. rewrite lookup_insert_eq, !lookup_insert_ne by done.
    rewrite Hq, Hsd, Hia, Hirc, Hii, Hind, Hexd.
    cbn [optional]. by rewrite int_validator_int.
Qed.

Lemma max_results_any_integer_witness :
  SearchRequest.max_results (default_request "q") = Some 8%Z
  ∧ SearchRequest_validate strict
      (PDict (<["max_results" := PInt (-5)]> {["query" := PStr "q"]}))
    = inr (with_max_results (Some (-5)%Z) (default_request "q")).
Proof.
  destruct (max_results_any_integer strict {["query" := PStr "q"]} (default_request "q"))
    as [Hdefault Hany]; [vm_compute; reflexivity|].
  split; [apply Hdefault; reflexivity | apply (Hany (-5)%Z)].
Defined.

(** ** The minimal search *)

Lemma quick_search_eq tavily query log :
  quick_search tavily query log
  = (match search tavily query ∅ with
     | inl e => HTTPException 500 ("Quick search error: " +:+ exn_str e)
     | inr (PDict d) =>
         Return (PDict (<["results" := default PNone (d !! "results")]>
                        (<["answer" := default PNone (d !! "answer")]>
                         {["query" := PStr query]})))
     | inr v =>
         HTTPException 500
           ("Quick search error: "
            +:+ repr (type_name v) +:+ " object has no attribute 'get'")
     end, log ++ [Call query ∅]).
Proof.
  unfold quick_search, try_except, invoke, lift, mbind, M_bind.
  destruct (search tavily query ∅) as [e|[]]; reflexivity.
Qed.

(** X1: [quick_search] returns exactly when the provider's reply is a dict, and
    then the body has the three keys [query], [answer] and [results]: the
    query as received, and the reply's answer and results as they are
    ([None] for one the reply does not have), whatever they hold. *)
Theorem quick_search_returns_reply_as_is tavily query log :
  ((∃ body, fst (quick_search tavily query log) = Return body)
   ↔ ∃ d, search tavily query ∅ = inr (PDict d))
  ∧ (∀ d, search tavily query ∅ = inr (PDict d) →
          ∃ body,
            quick_search tavily query log = (Return (PDict body), log ++ [Call query ∅])
            ∧ body !! "query" = Some (PStr query)
            ∧ body !! "answer" = Some (default PNone (d !! "answer"))
            ∧ body !! "results" = Some (default PNone (d !! "results"))
            ∧ dom body = {["query"; "answer"; "results"]}).
Proof.
  rewrite quick_search_eq. split.
  - destruct (search tavily query ∅) as [e|[]]; cbn [fst];
      (split; [intros [body Hbody] | intros [d' Hd']]);
      first [discriminate | by eexists].
  - intros d ->. eexists. split; [reflexivity|].
    repeat (split; [reflexivity|]).
    rewrite !dom_insert_L, dom_singleton_L. set_solver.
Qed.

Lemma quick_search_returns_reply_as_is_witness :
  ∃ body,
    quick_search (MockTavily incomplete_response) "test query" []
    = (Return (PDict body), [Call "test query" ∅])
    ∧ body !! "query" = Some (PStr "test query")
    ∧ body !! "answer" = Some PNone
    ∧ body !! "results"
      = Some (PList [PDict mock_result; PDict {["title" := PStr "Test"]}])
    ∧ dom body = {["query"; "answer"; "results"]}.
Proof.
  destruct (proj2 (quick_search_returns_reply_as_is (MockTavily incomplete_response)
                     "test query" [])
              {["results" := PList [PDict mock_result; PDict {["title" := PStr "Test"]}]]}
              eq_refl) as (body & Hbody & Hquery & Hanswer & Hresults & Hdom).
  exists body. split; [exact Hbody|]. split; [exact Hquery|].
  split; [exact Hanswer|]. split; [exact Hresults | exact Hdom].
Defined.

(** X2: [GET /quick-search] invokes the provider once, with the query and no
    option at all, whatever the provider answers; without the [query]
    parameter the request is refused with status 422 and the provider is not
    invoked. *)
Theorem quick_search_sends_query_only tavily log :
  (∀ query, snd (quick_search tavily query log) = log ++ [Call query ∅])
  ∧ (∀ params query,
       params !! "query" = Some query →
       get_quick_search tavily params log = quick_search tavily query log)
  ∧ (∀ params,
       params !! "query" = None →
       get_quick_search tavily params log = (RequestValidationError ["query"], log)
       ∧ status (fst (get_quick_search tavily params log)) = 422%Z).
Proof.
  split; [|split].
  - intros query. by rewrite quick_search_eq.
  - intros params query Hquery. unfold get_quick_search. by rewrite Hquery.
  - intros params Hmissing. unfold get_quick_search. by rewrite Hmissing.
Qed.

Lemma quick_search_sends_query_only_witness :
  get_quick_search (MockTavily (mock_response "test query")) {["query" := "test query"]} []
  = quick_search (MockTavily (mock_response "test query")) "test query" []
  ∧ get_quick_search (MockTavily (mock_response "test query")) ∅ []
    = (RequestValidationError ["query"], []).
Proof.
  destruct (quick_search_sends_query_only (MockTavily (mock_response "test query")) [])
    as (_ & Hquery & Hmissing).
  split.
  - apply (Hquery {["query" := "test query"]} "test query"). reflexivity.
  - apply (Hmissing ∅). reflexivity.
Defined.

(** ** What the handlers answer *)

(** X3: A handler either returns or raises [HTTPException] with status 500, and
    the detail begins with the handler's own prefix: ["Tavily search error: "]
    for [perform_search], ["Quick search error: "] for [quick_search]. *)
Theorem handlers_return_or_raise_500 P tavily log :
  (∀ request,
     (∃ resp, fst (perform_search P tavily request log) = Return resp)
     ∨ (∃ msg, fst (perform_search P tavily request log)
               = HTTPException 500 ("Tavily search error: " +:+ msg)))
  ∧ (∀ query,
       (∃ body, fst (quick_search tavily query log) = Return body)
       ∨ (∃ msg, fst (quick_search tavily query log)
                 = HTTPException 500 ("Quick search error: " +:+ msg))).
Proof.
  split.
  - intros request. rewrite perform_search_eq. cbn [fst].
    destruct (search tavily _ _) as [e|response]; [right; by eexists|].
    destruct (structured P request response); [right | left]; by eexists.
  - intros query. rewrite quick_search_eq. cbn [fst].
    destruct (search tavily query ∅) as [e|[]]; first [left; by eexists | right; by eexists].
Qed.

(** ** Validation, field by field *)

(** A body validates exactly when each of its eight fields does, and the
    request holds the validated fields. *)
Lemma SearchRequest_validate_inr P d request :
  SearchRequest_validate P (PDict d) = inr request
  ↔ required (str_validator P) (d !! "query") = Some (SearchRequest.query request)
    ∧ optional (str_validator P) (Some "advanced") (d !! "search_depth")
      = Some (SearchRequest.search_depth request)
    ∧ optional (int_validator P) (Some 8%Z) (d !! "max_results")
      = Some (SearchRequest.max_results request)
    ∧ optional (bool_validator P) (Some true) (d !! "include_answer")
      = Some (SearchRequest.include_answer request)
    ∧ optional (bool_validator P) (Some false) (d !! "include_raw_content")
      = Some (SearchRequest.include_raw_content request)
    ∧ optional (bool_validator P) (Some false) (d !! "include_images")
      = Some (SearchRequest.include_images request)
    ∧ optional (list_validator (str_validator P)) None (d !! "include_domains")
      = Some (SearchRequest.include_domains request)
    ∧ optional (list_validator (str_validator P)) None (d !! "exclude_domains")
      = Some (SearchRequest.exclude_domains request).
Proof.
  unfold SearchRequest_validate.
  destruct (required (str_validator P) (d !! "query")) as [q|];
    [|split; [done | by intros (? & _)]].
  destruct (optional (str_validator P) (Some "advanced") (d !! "search_depth")) as [sd|];
    [|split; [done | by intros (_ & ? & _)]].
  destruct (optional (int_validator P) (Some 8%Z) (d !! "max_results")) as [mr|];
    [|split; [done | by intros (_ & _ & ? & _)]].
  destruct (optional (bool_validator P) (Some true) (d !! "include_answer")) as [ia|];
    [|split; [done | by intros (_ & _ & _ & ? & _)]].
  destruct (optional (bool_validator P) (Some false) (d !! "include_raw_content")) as [irc|];
    [|split; [done | by intros (_ & _ & _ & _ & ? & _)]].
  destruct (optional (bool_validator P) (Some false) (d !! "include_images")) as [ii|];
    [|split; [done | by intros (_ & _ & _ & _ & _ & ? & _)]].
  destruct (optional (list_validator (str_validator P)) None (d !! "include_domains"))
    as [ind|]; [|split; [done | by intros (_ & _ & _ & _ & _ & _ & ? & _)]].
  destruct (optional (list_validator (str_validator P)) None (d !! "exclude_domains"))
    as [exd|]; [|split; [done | by intros (_ & _ & _ & _ & _ & _ & _ & ?)]].
  cbn. split.
  - by intros [= <-].
  - intros (? & ? & ? & ? & ? & ? & ? & ?). destruct request. cbn in *. congruence.
Qed.

Lemma SearchRequest_validate_inl P body fields :
  SearchRequest_validate P body = inl fields → fields ≠ [].
Proof.
  unfold SearchRequest_validate. destruct body as [| | | | | |d]; try by intros [= <-].
  destruct (required (str_validator P) (d !! "query")) as [q|]; [|by intros [= <-]].
  destruct (optional (str_validator P) (Some "advanced") (d !! "search_depth")) as [sd|];
    [|by intros [= <-]].
  destruct (optional (int_validator P) (Some 8%Z) (d !! "max_results")) as [mr|];
    [|by intros [= <-]].
  destruct (optional (bool_validator P) (Some true) (d !! "include_answer")) as [ia|];
    [|by intros [= <-]].
  destruct (optional (bool_validator P) (Some false) (d !! "include_raw_content")) as [irc|];
    [|by intros [= <-]].
  destruct (optional (bool_validator P) (Some false) (d !! "include_images")) as [ii|];
    [|by intros [= <-]].
  destruct (optional (list_validator (str_validator P)) None (d !! "include_domains"))
    as [ind|]; [|by intros [= <-]].
  destruct (optional (list_validator (str_validator P)) None (d !! "exclude_domains"))
    as [exd|]; [|by intros [= <-]].
  done.
Qed.

Lemma list_validator_strs P (l : list string) :
  list_validator (str_validator P) (py_strs l) = Some l.
Proof.
  unfold list_validator, py_strs. induction l as [|s l IH]; [done|].
  cbn. rewrite str_validator_str. cbn. by rewrite IH.
Qed.

Lemma post_search_validates_first_aux P tavily body log :
  (∀ fields,
     SearchRequest_validate P body = inl fields →
     post_search P tavily body log = (RequestValidationError fields, log))
  ∧ (∀ request,
       SearchRequest_validate P body = inr request →
       snd (post_search P tavily body log) = log ++ [search_call request]).
Proof.
  unfold post_search. split.
  - intros fields Hfields. by rewrite Hfields.
  - intros request Hrequest. rewrite Hrequest. apply perform_search_log.
Qed.

(** X4: [POST /search] validates the body before anything else: a body that
    fails is refused with status 422 and at least one field named, and the
    provider is not invoked; a body that validates is handed to
    [perform_search], which invokes the provider once. *)
Theorem post_search_validates_first P tavily body log :
  (∀ fields,
     SearchRequest_validate P body = inl fields →
     post_search P tavily body log = (RequestValidationError fields, log)
     ∧ fields ≠ []
     ∧ status (fst (post_search P tavily body log)) = 422%Z)
  ∧ (∀ request,
       SearchRequest_validate P body = inr request →
       post_search P tavily body log = perform_search P tavily request log
       ∧ snd (post_search P tavily body log) = log ++ [search_call request])
  ∧ ((∀ d, body ≠ PDict d) →
     post_search P tavily body log = (RequestValidationError ["body"], log)).
Proof.
  unfold post_search. split; [|split].
  - intros fields Hfields. rewrite Hfields.
    split; [done|]. split; [|done]. by eapply SearchRequest_validate_inl.
  - intros request Hrequest. rewrite Hrequest. split; [done|]. apply perform_search_log.
  - intros Hbody. destruct body as [| | | | | |d]; try done. by destruct (Hbody d).
Qed.

Lemma post_search_validates_first_witness :
  (post_search strict (MockTavily (mock_response "q"))
     (PDict (<["max_results" := PStr "five"]> {["query" := PInt 5]})) []
   = (RequestValidationError ["query"; "max_results"], []))
  ∧ snd (post_search strict (MockTavily (mock_response "q")) (PDict {["query" := PStr "q"]}) [])
    = [search_call (default_request "q")]
  ∧ post_search strict (MockTavily (mock_response "q")) (PList []) []
    = (RequestValidationError ["body"], []).
Proof.
  split; [|split].
  - apply (proj1 (post_search_validates_first strict (MockTavily (mock_response "q"))
                    (PDict (<["max_results" := PStr "five"]> {["query" := PInt 5]})) [])
             ["query"; "max_results"]).
    vm_compute. reflexivity.
  - apply (proj1 (proj2 (post_search_validates_first strict (MockTavily (mock_response "q"))
                           (PDict {["query" := PStr "q"]}) []))
             (default_request "q")).
    vm_compute. reflexivity.
  - apply (proj2 (proj2 (post_search_validates_first strict (MockTavily (mock_response "q"))
                           (PList []) []))).
    intros d. discriminate.
Defined.

(** X5: [search_depth] is not checked against any list of values: whatever
    string the body gives validates and reaches the provider unchanged. *)
Theorem search_depth_is_passed_through P tavily d request s log :
  SearchRequest_validate P (PDict d) = inr request →
  SearchRequest_validate P (PDict (<["search_depth" := PStr s]> d))
  = inr (with_search_depth (Some s) request)
  ∧ ∃ kwargs,
      snd (post_search P tavily (PDict (<["search_depth" := PStr s]> d)) log)
      = log ++ [Call (SearchRequest.query request) kwargs]
      ∧ kwargs !! "search_depth" = Some (PStr s).
Proof.
  intros Hvalid.
  assert (SearchRequest_validate P (PDict (<["search_depth" := PStr s]> d))
          = inr (with_search_depth (Some s) request)) as Hnew.
  { apply SearchRequest_validate_inr in Hvalid
      as (Hq & Hsd & Hmr & Hia & Hirc & Hii & Hind & Hexd).
    apply SearchRequest_validate_inr.
    rewrite lookup_insert_eq, !lookup_insert_ne by done. cbn.
    rewrite str_validator_str. done. }
  split; [done|].
  exists (search_params (with_search_depth (Some s) request)). split.
  - unfold post_search. rewrite Hnew. apply perform_search_log.
  - apply search_params_scalar.
Qed.

Lemma search_depth_is_passed_through_witness :
  SearchRequest_validate strict
    (PDict (<["search_depth" := PStr "invalid"]> {["query" := PStr "test"]}))
  = inr (with_search_depth (Some "invalid") (default_request "test"))
  ∧ ∃ kwargs,
      snd (post_search strict (MockTavily (mock_response "test"))
             (PDict (<["search_depth" := PStr "invalid"]> {["query" := PStr "test"]})) [])
      = [Call "test" kwargs]
      ∧ kwargs !! "search_depth" = Some (PStr "invalid").
Proof.
  apply (search_depth_is_passed_through strict (MockTavily (mock_response "test"))
           {["query" := PStr "test"]} (default_request "test") "invalid" []).
  vm_compute. reflexivity.
Defined.

(** X6: An option given as [null] is not replaced by its default: the request
    holds [None] for it, and [None] is what the provider is called with. *)
Theorem null_option_overrides_default P tavily d request log :
  SearchRequest_validate P (PDict d) = inr request →
  (SearchRequest_validate P (PDict (<["max_results" := PNone]> d))
   = inr (with_max_results None request)
   ∧ ∃ kwargs,
       snd (post_search P tavily (PDict (<["max_results" := PNone]> d)) log)
       = log ++ [Call (SearchRequest.query request) kwargs]
       ∧ kwargs !! "max_results" = Some PNone)
  ∧ (SearchRequest_validate P (PDict (<["search_depth" := PNone]> d))
     = inr (with_search_depth None request)
     ∧ ∃ kwargs,
         snd (post_search P tavily (PDict (<["search_depth" := PNone]> d)) log)
         = log ++ [Call (SearchRequest.query request) kwargs]
         ∧ kwargs !! "search_depth" = Some PNone).
Proof.
  intros Hvalid.
  apply SearchRequest_validate_inr in Hvalid
    as (Hq & Hsd & Hmr & Hia & Hirc & Hii & Hind & Hexd).
  assert (SearchRequest_validate P (PDict (<["max_results" := PNone]> d))
          = inr (with_max_results None request)) as Hmax.
  { apply SearchRequest_validate_inr.
    rewrite lookup_insert_eq, !lookup_insert_ne by done. done. }
  assert (SearchRequest_validate P (PDict (<["search_depth" := PNone]> d))
          = inr (with_search_depth None request)) as Hdepth.
  { apply SearchRequest_validate_inr.
    rewrite lookup_insert_eq, !lookup_insert_ne by done. done. }
  split; (split; [done|]).
  - exists (search_params (with_max_results None request)). split.
    + unfold post_search. rewrite Hmax. apply perform_search_log.
    + apply search_params_scalar.
  - exists (search_params (with_search_depth None request)). split.
    + unfold post_search. rewrite Hdepth. apply perform_search_log.
    + apply search_params_scalar.
Qed.

Lemma null_option_overrides_default_witness :
  SearchRequest_validate strict (PDict (<["max_results" := PNone]> {["query" := PStr "q"]}))
  = inr (with_max_results None (default_request "q"))
  ∧ ∃ kwargs,
      snd (post_search strict (MockTavily (mock_response "q"))
             (PDict (<["max_results" := PNone]> {["query" := PStr "q"]})) [])
      = [Call "q" kwargs]
      ∧ kwargs !! "max_results" = Some PNone.
Proof.
  destruct (null_option_overrides_default strict (MockTavily (mock_response "q"))
              {["query" := PStr "q"]} (default_request "q") []) as [Hmax _];
    [vm_compute; reflexivity | exact Hmax].
Defined.

(** X7: A non-empty list of domain strings given for [include_domains] (or for
    [exclude_domains]) validates to that list and is the value of that key in
    the provider call: the same strings in the same order. *)
Theorem domains_are_sent_as_supplied P d request l :
  SearchRequest_validate P (PDict d) = inr request →
  l ≠ [] →
  (SearchRequest_validate P (PDict (<["include_domains" := py_strs l]> d))
   = inr (with_include_domains (Some l) request)
   ∧ search_params (with_include_domains (Some l) request) !! "include_domains"
     = Some (PList (PStr <$> l)))
  ∧ (SearchRequest_validate P (PDict (<["exclude_domains" := py_strs l]> d))
     = inr (with_exclude_domains (Some l) request)
     ∧ search_params (with_exclude_domains (Some l) request) !! "exclude_domains"
       = Some (PList (PStr <$> l))).
Proof.
  intros Hvalid Hl.
  apply SearchRequest_validate_inr in Hvalid
    as (Hq & Hsd & Hmr & Hia & Hirc & Hii & Hind & Hexd).
  assert (optional (list_validator (str_validator P)) None (Some (py_strs l))
          = Some (Some l)) as Hlist.
  { unfold optional, py_strs. fold (py_strs l). by rewrite list_validator_strs. }
  destruct l as [|s l]; [done|]. split; split.
  - apply SearchRequest_validate_inr.
    rewrite lookup_insert_eq, !lookup_insert_ne by done. by rewrite Hlist.
  - by rewrite search_params_include_domains.
  - apply SearchRequest_validate_inr.
    rewrite lookup_insert_eq, !lookup_insert_ne by done. by rewrite Hlist.
  - by rewrite search_params_exclude_domains.
Qed.

Lemma domains_are_sent_as_supplied_witness :
  SearchRequest_validate strict
    (PDict (<["include_domains" := py_strs ["arxiv.org"; "ieee.org"]]>
            {["query" := PStr "q"]}))
  = inr (with_include_domains (Some ["arxiv.org"; "ieee.org"]) (default_request "q"))
  ∧ search_params (with_include_domains (Some ["arxiv.org"; "ieee.org"])
                     (default_request "q")) !! "include_domains"
    = Some (PList [PStr "arxiv.org"; PStr "ieee.org"]).
Proof.
  destruct (domains_are_sent_as_supplied strict {["query" := PStr "q"]}
              (default_request "q") ["arxiv.org"; "ieee.org"]) as [Hinclude _];
    [vm_compute; reflexivity | discriminate | exact Hinclude].
Defined.

(** ** Replies that are not as expected *)

(** X8: A reply without the key [results] is served like one with an empty
    list; a reply whose [results] is [None] is not: it ends in the upstream
    error. *)
Theorem missing_results_is_empty_but_null_fails P tavily request log d :
  search tavily (SearchRequest.query request) (search_params request) = inr (PDict d) →
  (d !! "results" = None →
   ∀ a, default PNone (d !! "answer") = py_option PStr a →
        perform_search P tavily request log
        = (Return (SearchResponse.mk (SearchRequest.query request) a []),
           log ++ [search_call request]))
  ∧ (d !! "results" = Some PNone →
     ∃ detail,
       perform_search P tavily request log
       = (HTTPException 500 detail, log ++ [search_call request])).
Proof.
  intros Hreply. split.
  - intros Hmissing a Hanswer.
    apply (perform_search_field_copy P tavily request log d [] [] a);
      [done | by rewrite Hmissing | constructor | done].
  - intros Hnull. rewrite perform_search_eq, Hreply.
    unfold structured. cbn [get]. rewrite result_bind_mret, Hnull. by eexists.
Qed.

Lemma missing_results_is_empty_but_null_fails_witness :
  perform_search strict (MockTavily (PDict {["answer" := PStr "Mock answer"]}))
    robotics_request []
  = (Return (SearchResponse.mk "latest robotics 2025" (Some "Mock answer") []),
     [search_call robotics_request])
  ∧ ∃ detail,
      perform_search strict (MockTavily (PDict {["results" := PNone]})) robotics_request []
      = (HTTPException 500 detail, [search_call robotics_request]).
Proof.
  split.
  - apply (proj1 (missing_results_is_empty_but_null_fails strict
                    (MockTavily (PDict {["answer" := PStr "Mock answer"]}))
                    robotics_request [] {["answer" := PStr "Mock answer"]} eq_refl));
      reflexivity.
  - apply (proj2 (missing_results_is_empty_but_null_fails strict
                    (MockTavily (PDict {["results" := PNone]}))
                    robotics_request [] {["results" := PNone]} eq_refl));
      reflexivity.
Defined.

(** X9: A result entry that gives one of the four required fields as [None]
    fails the whole call like an entry that lacks the field, whatever
    Pydantic is installed. *)
Theorem null_required_field_fails P tavily request log response entries d :
  search tavily (SearchRequest.query request) (search_params request) = inr response →
  reply_results response = inr entries →
  PDict d ∈ entries →
  d !! "title" = Some PNone ∨ d !! "url" = Some PNone
  ∨ d !! "content" = Some PNone ∨ d !! "score" = Some PNone →
  ∃ detail,
    perform_search P tavily request log
    = (HTTPException 500 detail, log ++ [search_call request]).
Proof.
  intros Hreply Hentries Hin Hnull.
  rewrite perform_search_eq, Hreply.
  destruct (structured P request response) as [e|resp] eqn:Hs; [by eexists|].
  exfalso.
  destruct (structured_reply_results _ _ _ _ Hs) as (entries' & Hentries' & Hall).
  rewrite Hentries in Hentries'. injection Hentries' as <-.
  apply list_elem_of_lookup_1 in Hin as [i Hi].
  destruct (Forall2_lookup_l _ _ _ _ _ Hall Hi)
    as (sr & _ & d' & [= <-] & Ht & Hu & Hc & Hsc & _).
  destruct Hnull as [H|[H|[H|H]]]; rewrite H in *; discriminate.
Qed.

Lemma null_required_field_fails_witness :
  ∃ detail,
    perform_search strict
      (MockTavily (PDict {["results" := PList [PDict (<["url" := PNone]> mock_result)]]}))
      robotics_request []
    = (HTTPException 500 detail, [search_call robotics_request]).
Proof.
  apply (null_required_field_fails strict
           (MockTavily (PDict {["results" := PList [PDict (<["url" := PNone]> mock_result)]]}))
           robotics_request []
           (PDict {["results" := PList [PDict (<["url" := PNone]> mock_result)]]})
           [PDict (<["url" := PNone]> mock_result)] (<["url" := PNone]> mock_result)).
  - reflexivity.
  - reflexivity.
  - left.
  - right. left. reflexivity.
Defined.

(** ** Start-up and the running service *)

(** X10: Importing the application succeeds exactly when [TAVILY_API_KEY] is a
    non-empty string once the [.env] file has been loaded (the empty string
    counts as not set); a value in the process environment wins over the
    [.env] file, and the client is built with the key. *)
Theorem import_app_needs_non_empty_key TavilyClient_new dotenv environ :
  ((∃ a, import_app TavilyClient_new dotenv environ = inr a)
   ↔ ∃ c key, load_dotenv dotenv environ !! "TAVILY_API_KEY" = Some (String c key))
  ∧ (∀ c key,
       environ !! "TAVILY_API_KEY" = Some (String c key) →
       import_app TavilyClient_new dotenv environ
       = inr {| TAVILY_API_KEY := String c key;
                tavily_client := TavilyClient_new (String c key) |})
  ∧ (∀ c key,
       environ !! "TAVILY_API_KEY" = None →
       dotenv !! "TAVILY_API_KEY" = Some (String c key) →
       import_app TavilyClient_new dotenv environ
       = inr {| TAVILY_API_KEY := String c key;
                tavily_client := TavilyClient_new (String c key) |})
  ∧ (load_dotenv dotenv environ !! "TAVILY_API_KEY" = Some "" →
     import_app TavilyClient_new dotenv environ
     = inl (ValueError "TAVILY_API_KEY not set in environment variables")).
Proof.
  split; [|split; [|split]].
  - unfold import_app.
    destruct (load_dotenv dotenv environ !! "TAVILY_API_KEY") as [[|c key]|].
    + split; [by intros [a Ha] | by intros (c' & key' & Hkey)].
    + split; [by eauto | by eexists].
    + split; [by intros [a Ha] | by intros (c' & key' & Hkey)].
  - intros c key Henv. unfold import_app, load_dotenv.
    by rewrite (lookup_union_Some_l _ _ _ _ Henv).
  - intros c key Henv Hdotenv. unfold import_app, load_dotenv.
    by rewrite (lookup_union_r _ _ _ Henv), Hdotenv.
  - apply import_app_empty_key.
Qed.

Lemma import_app_needs_non_empty_key_witness :
  import_app offline_client {["TAVILY_API_KEY" := "from-dotenv"]}
    {["TAVILY_API_KEY" := "from-environ"]}
  = inr {| TAVILY_API_KEY := "from-environ"; tavily_client := offline_client "from-environ" |}
  ∧ import_app offline_client {["TAVILY_API_KEY" := "from-dotenv"]} ∅
    = inr {| TAVILY_API_KEY := "from-dotenv"; tavily_client := offline_client "from-dotenv" |}
  ∧ import_app offline_client ∅ {["TAVILY_API_KEY" := ""]}
    = inl (ValueError "TAVILY_API_KEY not set in environment variables").
Proof.
  split; [|split].
  - apply (proj1 (proj2 (import_app_needs_non_empty_key offline_client
                           {["TAVILY_API_KEY" := "from-dotenv"]}
                           {["TAVILY_API_KEY" := "from-environ"]}))).
    reflexivity.
  - apply (proj1 (proj2 (proj2 (import_app_needs_non_empty_key offline_client
                                  {["TAVILY_API_KEY" := "from-dotenv"]} ∅))));
      reflexivity.
  - apply (proj2 (proj2 (proj2 (import_app_needs_non_empty_key offline_client ∅
                                  {["TAVILY_API_KEY" := ""]})))).
    reflexivity.
Defined.

Lemma handle_calls P a r log :
  ∃ calls, snd (handle P a r log) = log ++ calls ∧ (length calls ≤ 1)%nat.
Proof.
  destruct r as [|body|params]; cbn [handle].
  - exists []. rewrite app_nil_r. split; [done | cbn; lia].
  - pose proof (proj2 (post_search_validates_first_aux P (tavily_client a) body log))
      as Hvalid.
    pose proof (proj1 (post_search_validates_first_aux P (tavily_client a) body log))
      as Hinvalid.
    destruct (SearchRequest_validate P body) as [fields|request].
    + rewrite (Hinvalid fields eq_refl). exists []. rewrite app_nil_r. split; [done | cbn; lia].
    + specialize (Hvalid request eq_refl).
      destruct (post_search P (tavily_client a) body log) as [o log'].
      exists [search_call request]. split; [done | cbn; lia].
  - unfold get_quick_search. destruct (params !! "query") as [query|].
    + pose proof (quick_search_eq (tavily_client a) query log) as Heq.
      destruct (quick_search (tavily_client a) query log) as [o log'].
      exists [Call query ∅]. split; [by injection Heq | cbn; lia].
    + exists []. rewrite app_nil_r. split; [done | cbn; lia].
Qed.

(** X11: The service answers every request, in order, and invokes the provider at
    most once per request; the calls made earlier stay in the log. *)
Theorem serve_one_call_per_request P a rs log :
  length (fst (serve P a rs log)) = length rs
  ∧ ∃ calls, snd (serve P a rs log) = log ++ calls ∧ (length calls ≤ length rs)%nat.
Proof.
  revert log. induction rs as [|r rs IH]; intros log.
  - split; [done|]. exists []. rewrite app_nil_r. split; [done | cbn; lia].
  - cbn [serve].
    destruct (handle_calls P a r log) as (calls1 & Hcalls1 & Hlen1).
    destruct (handle P a r log) as [x log'] eqn:Hhandle. cbn [snd] in Hcalls1. subst log'.
    destruct (IH (log ++ calls1)) as (Hlength & calls2 & Hcalls2 & Hlen2).
    destruct (serve P a rs (log ++ calls1)) as [xs log''].
    cbn [fst snd length] in *. split; [by rewrite Hlength|].
    exists (calls1 ++ calls2). split; [by rewrite Hcalls2, app_assoc|].
    rewrite length_app. lia.
Qed.

(** X12: Health checks never reach the provider: a service that is asked for
    its health only answers every request with the same body and leaves the
    log of provider calls as it was. *)
Theorem health_checks_never_call_provider P a n log :
  serve P a (replicate n GET_health) log
  = (replicate n (health_response health_check), log).
Proof.
  induction n as [|n IH]; [done|].
  cbn [replicate serve handle]. by rewrite IH.
Qed.
